(** * The Executor RPC stubs of [server/trace-func-py/faas_pb2_grpc.py]

    A shallow embedding of the generated gRPC module: the client stub
    [ExecutorStub], the base servicer [ExecutorServicer], the registration
    function [add_ExecutorServicer_to_server] and the static helper
    [Executor.Execute], together with the part of the gRPC runtime those
    four call into. *)

From Stdlib Require Import ZArith NArith.
From Stdlib.Strings Require Import Byte.
From stdpp Require Import gmap strings list fin_maps.

Local Open Scope string_scope.
Local Open Scope list_scope.

(** ** Python values and outcomes *)

Abbreviation bytes := (list byte).

(** A dynamically typed Python value, as far as the call options of the
    client need one.  Credentials, compression selectors and the like are
    objects this module never looks into: [VObject] carries their class name
    and identity only.  [VFloat] carries the bit pattern of a float. *)
#[warnings="-register-all"]
Inductive value : Type :=
| VNone
| VBool (b : bool)
| VInt (z : Z)
| VFloat (bits : Z)
| VStr (s : string)
| VBytes (b : bytes)
| VTuple (items : list value)
| VObject (cls : string) (id : N).

Inductive StatusCode : Type :=
| OK | CANCELLED | UNKNOWN | INVALID_ARGUMENT | DEADLINE_EXCEEDED | NOT_FOUND
| ALREADY_EXISTS | PERMISSION_DENIED | RESOURCE_EXHAUSTED | FAILED_PRECONDITION
| ABORTED | OUT_OF_RANGE | UNIMPLEMENTED | INTERNAL | UNAVAILABLE | DATA_LOSS
| UNAUTHENTICATED.

(** The exceptions that occur in this module and its runtime. *)
Inductive exception : Type :=
| NotImplementedError (msg : string)
| RpcError (code : StatusCode) (details : string)
| Exception (msg : string).

(** [str(exception)] *)
Definition exception_str (e : exception) : string :=
  match e with
  | NotImplementedError msg => msg
  | RpcError _ details => details
  | Exception msg => msg
  end.

(** The outcome of a Python call: it returns a value or raises. *)
Inductive result (A : Type) : Type :=
| Returned (a : A)
| Raised (e : exception).
Arguments Returned {A} a.
Arguments Raised {A} e.

(** ** The message module [faas_pb2]

    The message classes live in a generated module of their own; the stubs
    only use their two codec entry points, so a message class is taken as a
    parameter: a carrier with [SerializeToString] and [FromString] ([None]
    when parsing raises). *)
Record MessageClass : Type := {
  message :> Type;
  SerializeToString : message → bytes;
  FromString : bytes → option message;
}.

Class faas_pb2 : Type := {
  FaasRequest : MessageClass;
  FaasReply : MessageClass;
}.

(** ** The gRPC runtime, as far as the stubs call into it

    The [grpc] package is a library outside the repository.  What follows
    are the entry points the generated module calls, and the server-side
    handling of one unary call that gives the handler table its meaning:
    lookup of the method among the generic handlers, deserialization of the
    request, the call of the behaviour, and the status the call ends with. *)
Module grpc.

(** *** Servicer context: status code and details set by the handler.
    [history] is a ghost log of the setter calls, oldest first. *)
Inductive ContextCall : Type :=
| SetCode (c : StatusCode)
| SetDetails (d : string).

Record ServicerContext : Type := {
  code : option StatusCode;
  details : option string;
  history : list ContextCall;
}.

Definition fresh_context : ServicerContext :=
  {| code := None; details := None; history := [] |}.

(** A handler body runs against the context of its call and either returns
    or raises; the context keeps what was set before a raise. *)
Definition Rpc (A : Type) : Type := ServicerContext → ServicerContext * result A.

Definition ret {A} (a : A) : Rpc A := λ ctx, (ctx, Returned a).

Definition raise {A} (e : exception) : Rpc A := λ ctx, (ctx, Raised e).

Definition bind {A B} (m : Rpc A) (k : A → Rpc B) : Rpc B :=
  λ ctx, match m ctx with
         | (ctx', Returned a) => k a ctx'
         | (ctx', Raised e) => (ctx', Raised e)
         end.

Definition set_code (c : StatusCode) : Rpc unit :=
  λ ctx, ({| code := Some c; details := details ctx;
             history := history ctx ++ [SetCode c] |}, Returned ()).

Definition set_details (d : string) : Rpc unit :=
  λ ctx, ({| code := code ctx; details := Some d;
             history := history ctx ++ [SetDetails d] |}, Returned ()).

Module Notations.
Notation "m ;;; k" := (bind m (λ _, k))
  (at level 100, k at level 200, right associativity).
End Notations.

Section runtime.
Context {Req Resp : Type}.

(** *** Method handlers *)
Record RpcMethodHandler : Type := {
  request_streaming : bool;
  response_streaming : bool;
  request_deserializer : bytes → option Req;
  response_serializer : Resp → bytes;
  unary_unary : Req → Rpc Resp;
}.

Definition unary_unary_rpc_method_handler (behavior : Req → Rpc Resp)
    (request_deserializer : bytes → option Req)
    (response_serializer : Resp → bytes) : RpcMethodHandler :=
  {| request_streaming := false;
     response_streaming := false;
     request_deserializer := request_deserializer;
     response_serializer := response_serializer;
     unary_unary := behavior |}.

(** ["/{}/{}".format(group, method)] *)
Definition fully_qualified_method (group method : string) : string :=
  "/" +:+ group +:+ "/" +:+ method.

(** A generic handler: the service name and the handlers keyed by their
    fully qualified method name. *)
Record GenericHandler : Type := {
  service_name : string;
  _method_handlers : gmap string RpcMethodHandler;
}.

Definition method_handlers_generic_handler (service : string)
    (method_handlers : gmap string RpcMethodHandler) : GenericHandler :=
  {| service_name := service;
     _method_handlers := kmap (fully_qualified_method service) method_handlers |}.

Definition service (h : GenericHandler) (method : string) : option RpcMethodHandler :=
  _method_handlers h !! method.

(** *** Server: the generic handlers in registration order *)
Record Server : Type := {
  generic_handlers : list GenericHandler;
}.

(** [grpc.server(...)]: a server without handlers. *)
Definition server : Server := {| generic_handlers := [] |}.

(** [server.add_generic_rpc_handlers(handlers)] extends the list. *)
Definition add_generic_rpc_handlers (srv : Server)
    (handlers : list GenericHandler) : result Server :=
  Returned {| generic_handlers := generic_handlers srv ++ handlers |}.

(** The first generic handler that knows the method serves it. *)
Fixpoint _find_method_handler (method : string)
    (handlers : list GenericHandler) : option RpcMethodHandler :=
  match handlers with
  | [] => None
  | h :: rest =>
      match service h method with
      | Some mh => Some mh
      | None => _find_method_handler method rest
      end
  end.

(** *** One unary call, as the server resolves it.
    [invocations] is a ghost log of the requests handed to a handler. *)
Record Call : Type := {
  status : StatusCode;
  status_details : string;
  response : option bytes;
  invocations : list Req;
}.

(** Abort with a code and details: those the handler has set on the context
    take precedence over the ones given. *)
Definition _abort (ctx : ServicerContext) (c : StatusCode) (d : string)
    (invoked : list Req) : Call :=
  {| status := default c (code ctx);
     status_details := default d (details ctx);
     response := None;
     invocations := invoked |}.

(** Completion with a reply: [OK] and empty details unless the handler has
    set others. *)
Definition _status (ctx : ServicerContext) (serialized_response : bytes)
    (invoked : list Req) : Call :=
  {| status := default OK (code ctx);
     status_details := default "" (details ctx);
     response := Some serialized_response;
     invocations := invoked |}.

(** An unknown method is rejected as [UNIMPLEMENTED]; a request that does
    not deserialize aborts the call as [INTERNAL] before any behaviour runs;
    a behaviour that raises aborts it as [UNKNOWN], unless it has set a code
    of its own. *)
Definition _handle_call (srv : Server) (method : string) (payload : bytes) : Call :=
  match _find_method_handler method (generic_handlers srv) with
  | None => _abort fresh_context UNIMPLEMENTED "Method not found!" []
  | Some mh =>
      match request_deserializer mh payload with
      | None =>
          _abort fresh_context INTERNAL "Exception deserializing request!" []
      | Some request =>
          match unary_unary mh request fresh_context with
          | (ctx, Raised e) =>
              _abort ctx UNKNOWN
                ("Exception calling application: " +:+ exception_str e) [request]
          | (ctx, Returned reply) =>
              _status ctx (response_serializer mh reply) [request]
          end
      end
  end.

(** *** Channel and client-side callable *)

(** A channel carries the serialized request of a method to its peer and
    brings back how the call resolved. *)
Record Channel : Type := {
  channel_call : string → bytes → Call;
}.

(** The channel of a client connected to [srv]. *)
Definition server_channel (srv : Server) : Channel :=
  {| channel_call := _handle_call srv |}.

Record UnaryUnaryMultiCallable : Type := {
  _channel : Channel;
  _method : string;
  _request_serializer : Req → bytes;
  _response_deserializer : bytes → option Resp;
}.

Definition channel_unary_unary (channel : Channel) (method : string)
    (request_serializer : Req → bytes)
    (response_deserializer : bytes → option Resp) : UnaryUnaryMultiCallable :=
  {| _channel := channel;
     _method := method;
     _request_serializer := request_serializer;
     _response_deserializer := response_deserializer |}.

(** Invoking the callable serializes the request, starts the call of its
    method on its channel and waits for the resolution.  The result is the
    call as it resolves on the channel: parsing the response with the
    callable's deserializer, and what the caller is shown of the details of
    a call that ended [OK], are a further step that is not part of it. *)
Definition _blocking (mc : UnaryUnaryMultiCallable) (request : Req) : Call :=
  channel_call (_channel mc) (_method mc) (_request_serializer mc request).
End runtime.

Arguments RpcMethodHandler : clear implicits.
Arguments GenericHandler : clear implicits.
Arguments Server : clear implicits.
Arguments Call : clear implicits.
Arguments Channel : clear implicits.
Arguments UnaryUnaryMultiCallable : clear implicits.

(** *** [grpc.experimental]: the single-call entry point.
    The record lists the parameters of [grpc.experimental.unary_unary] in
    the order of its signature, so that a positional call is an application
    of the constructor. *)
Module experimental.
Record unary_unary_arguments (Req Resp : Type) : Type := Arguments_ {
  request : Req;
  target : string;
  method : string;
  request_serializer : Req → bytes;
  response_deserializer : bytes → option Resp;
  options : value;
  channel_credentials : value;
  insecure : value;
  call_credentials : value;
  compression : value;
  wait_for_ready : value;
  timeout : value;
  metadata : value;
}.
Arguments Arguments_ {Req Resp}.
Arguments request {Req Resp}.
Arguments target {Req Resp}.
Arguments method {Req Resp}.
Arguments request_serializer {Req Resp}.
Arguments response_deserializer {Req Resp}.
Arguments options {Req Resp}.
Arguments channel_credentials {Req Resp}.
Arguments insecure {Req Resp}.
Arguments call_credentials {Req Resp}.
Arguments compression {Req Resp}.
Arguments wait_for_ready {Req Resp}.
Arguments timeout {Req Resp}.
Arguments metadata {Req Resp}.
End experimental.
End grpc.

(** ** The generated module *)

Import grpc.Notations.

(** *** [class ExecutorStub] *)
Module ExecutorStub.
Section messages.
Context `{pb : faas_pb2}.

Record t : Type := {
  Execute : grpc.UnaryUnaryMultiCallable FaasRequest FaasReply;
}.

Definition __init__ (channel : grpc.Channel FaasRequest) : t :=
  {| Execute :=
       grpc.channel_unary_unary channel "/faasfunction.Executor/Execute"
         (SerializeToString FaasRequest)
         (FromString FaasReply) |}.
End messages.
End ExecutorStub.

(** *** [class ExecutorServicer] *)
Module ExecutorServicer.
Section messages.
Context `{pb : faas_pb2}.

Definition Execute {Self : Type} (self : Self) (request : FaasRequest)
    : grpc.Rpc FaasReply :=
  grpc.set_code UNIMPLEMENTED ;;;
  grpc.set_details "Method not implemented!" ;;;
  grpc.raise (NotImplementedError "Method not implemented!").
End messages.
End ExecutorServicer.

(** A servicer object, of [ExecutorServicer] or of a subclass: its instance
    attributes and the [Execute] its class defines. *)
Record Servicer `{pb : faas_pb2} : Type := {
  __dict__ : gmap string value;
  Execute_function : gmap string value → FaasRequest → grpc.Rpc FaasReply;
}.

(** The bound method [servicer.Execute]. *)
Definition servicer_Execute `{pb : faas_pb2} (servicer : Servicer)
    : FaasRequest → grpc.Rpc FaasReply :=
  Execute_function servicer (__dict__ servicer).

(** [ExecutorServicer()] *)
Definition ExecutorServicer_instance `{pb : faas_pb2} : Servicer :=
  {| __dict__ := ∅; Execute_function := ExecutorServicer.Execute |}.

(** *** [add_ExecutorServicer_to_server]
    The two locals of the function, as functions of the servicer. *)
Definition rpc_method_handlers `{pb : faas_pb2} (servicer : Servicer)
    : gmap string (grpc.RpcMethodHandler FaasRequest FaasReply) :=
  {[ "Execute" :=
       grpc.unary_unary_rpc_method_handler
         (servicer_Execute servicer)
         (FromString FaasRequest)
         (SerializeToString FaasReply) ]}.

Definition generic_handler `{pb : faas_pb2} (servicer : Servicer)
    : grpc.GenericHandler FaasRequest FaasReply :=
  grpc.method_handlers_generic_handler
    "faasfunction.Executor" (rpc_method_handlers servicer).

(** Both arguments are references to mutable objects; the result is the
    state the two objects are left in. *)
Definition add_ExecutorServicer_to_server `{pb : faas_pb2} (servicer : Servicer)
    (server : grpc.Server FaasRequest FaasReply)
    : result (Servicer * grpc.Server FaasRequest FaasReply) :=
  match grpc.add_generic_rpc_handlers server [generic_handler servicer] with
  | Returned server' => Returned (servicer, server')
  | Raised e => Raised e
  end.

(** *** [class Executor] *)
Module Executor.
Section messages.
Context `{pb : faas_pb2}.

(** The keyword parameters of [Execute]; [None] stands for an argument the
    caller left out. *)
Record keywords : Type := {
  options : option value;
  channel_credentials : option value;
  call_credentials : option value;
  insecure : option value;
  compression : option value;
  wait_for_ready : option value;
  timeout : option value;
  metadata : option value;
}.

Definition omitted : keywords :=
  {| options := None; channel_credentials := None; call_credentials := None;
     insecure := None; compression := None; wait_for_ready := None;
     timeout := None; metadata := None |}.

(** [unary_unary] is [grpc.experimental.unary_unary], the transport. *)
Definition Execute {R : Type}
    (unary_unary : grpc.experimental.unary_unary_arguments FaasRequest FaasReply → R)
    (request : FaasRequest) (target : string) (kw : keywords) : R :=
  let options := default (VTuple []) (options kw) in
  let channel_credentials := default VNone (channel_credentials kw) in
  let call_credentials := default VNone (call_credentials kw) in
  let insecure := default (VBool false) (insecure kw) in
  let compression := default VNone (compression kw) in
  let wait_for_ready := default VNone (wait_for_ready kw) in
  let timeout := default VNone (timeout kw) in
  let metadata := default VNone (metadata kw) in
  unary_unary
    (grpc.experimental.Arguments_ request target "/faasfunction.Executor/Execute"
       (SerializeToString FaasRequest)
       (FromString FaasReply)
       options channel_credentials
       insecure call_credentials compression wait_for_ready timeout metadata).
End messages.
End Executor.

(** ** A wire contract for the two messages *)
Module wire.

(** Modelled from the spec: the generated message module [faas_pb2] (classes
    [FaasRequest] and [FaasReply] with [SerializeToString] and [FromString])
    is missing from the sources.  The specification gives the request as a
    payload identifying the function to execute and its input arguments, a
    mapping of named arguments to byte data; the reply as the return values
    of the handler; and the codec as a length-prefixed binary encoding whose
    decoder fails on malformed bytes.  Here every field is written as a
    four-byte big-endian length followed by that many bytes. *)
Record Request : Type := {
  function : string;
  arguments : gmap string bytes;
}.

(** Modelled from the spec: the reply message of the missing [faas_pb2],
    the result payload as the list of return values. *)
Definition Reply : Type := list bytes.

(** Modelled from the spec: the length prefix of the missing codec, four
    bytes, most significant first. *)
Definition byte_of_N (n : N) : byte :=
  default x00 (Byte.of_N (n mod 256)).

Definition encode_length (n : N) : bytes :=
  [byte_of_N (n / 16777216); byte_of_N (n / 65536); byte_of_N (n / 256); byte_of_N n].

Definition decode_length (b0 b1 b2 b3 : byte) : N :=
  Byte.to_N b0 * 16777216 + Byte.to_N b1 * 65536 + Byte.to_N b2 * 256 + Byte.to_N b3.

(** Modelled from the spec: the length-prefixed encoding of the fields of a
    message of the missing [faas_pb2], and its decoder, which fails on a
    truncated prefix or field. *)
Definition encode_field (v : bytes) : bytes :=
  encode_length (N.of_nat (length v)) ++ v.

Definition encode_fields (vs : list bytes) : bytes :=
  concat (encode_field <$> vs).

(** Each round consumes at least the four bytes of a length, so the length
    of the input is fuel enough. *)
Fixpoint decode_fields_aux (fuel : nat) (bs : bytes) : option (list bytes) :=
  match bs with
  | [] => Some []
  | b0 :: b1 :: b2 :: b3 :: rest =>
      let n := decode_length b0 b1 b2 b3 in
      if decide (n ≤ N.of_nat (length rest))%N then
        match fuel with
        | O => None
        | S fuel' =>
            (take (N.to_nat n) rest ::.) <$> decode_fields_aux fuel' (drop (N.to_nat n) rest)
        end
      else None
  | _ => None
  end.

Definition decode_fields (bs : bytes) : option (list bytes) :=
  decode_fields_aux (length bs) bs.

(** Modelled from the spec: [FaasReply.SerializeToString] and
    [FaasReply.FromString] of the missing [faas_pb2]. *)
Definition Reply_SerializeToString (r : Reply) : bytes := encode_fields r.

Definition Reply_FromString (bs : bytes) : option Reply := decode_fields bs.

(** Modelled from the spec: the fields of a request of the missing
    [faas_pb2]: the function, then name and data of each argument. *)
Definition argument_fields (a : string * bytes) : list bytes :=
  [String.list_byte_of_string a.1; a.2].

Definition Request_fields (r : Request) : list bytes :=
  String.list_byte_of_string (function r) :: (map_to_list (arguments r) ≫= argument_fields).

Fixpoint arguments_of_fields (fields : list bytes) : option (list (string * bytes)) :=
  match fields with
  | [] => Some []
  | name :: data :: rest =>
      ((String.string_of_list_byte name, data) ::.) <$> arguments_of_fields rest
  | _ => None
  end.

Definition Request_of_fields (fields : list bytes) : option Request :=
  match fields with
  | [] => None
  | f :: rest =>
      args ← arguments_of_fields rest;
      Some {| function := String.string_of_list_byte f; arguments := list_to_map args |}
  end.

(** Modelled from the spec: [FaasRequest.SerializeToString] and
    [FaasRequest.FromString] of the missing [faas_pb2]. *)
Definition Request_SerializeToString (r : Request) : bytes :=
  encode_fields (Request_fields r).

Definition Request_FromString (bs : bytes) : option Request :=
  decode_fields bs ≫= Request_of_fields.

(** Modelled from the spec: the valid values of the missing [faas_pb2]
    messages, those whose every field fits the length prefix. *)
Definition fits (v : bytes) : bool := (N.of_nat (length v) <? 4294967296)%N.

Definition valid_Reply (r : Reply) : bool := forallb fits r.

Definition valid_Request (r : Request) : bool := forallb fits (Request_fields r).

(** Modelled from the spec: the two message classes of the missing
    [faas_pb2] and the module itself. *)
Definition FaasRequest_class : MessageClass :=
  {| message := Request;
     SerializeToString := Request_SerializeToString;
     FromString := Request_FromString |}.

Definition FaasReply_class : MessageClass :=
  {| message := Reply;
     SerializeToString := Reply_SerializeToString;
     FromString := Reply_FromString |}.

Definition pb2 : faas_pb2 :=
  {| FaasRequest := FaasRequest_class; FaasReply := FaasReply_class |}.

(** Sample messages. *)
Definition sample_request : Request :=
  {| function := "f"; arguments := {[ "x" := [x01; x02] ]} |}.

Definition sample_reply : Reply := [[x2a]; []].
End wire.

(** ** The outcomes the specification names

    The call outcomes of the specification's status mapping, next to the
    status code of the runtime that carries each.  No status code stands
    for [MalformedMessage], and the codes without a named outcome map to
    nothing. *)
Inductive Outcome : Type :=
| Outcome_OK | Unimplemented | MalformedMessage | DeadlineExceeded
| Cancelled | Internal | Unavailable.

Definition outcome_of_code (c : StatusCode) : option Outcome :=
  match c with
  | OK => Some Outcome_OK
  | UNIMPLEMENTED => Some Unimplemented
  | DEADLINE_EXCEEDED => Some DeadlineExceeded
  | CANCELLED => Some Cancelled
  | INTERNAL => Some Internal
  | UNAVAILABLE => Some Unavailable
  | _ => None
  end.

(** The fully qualified name of the method. *)
Definition Execute_method_name : string := "/faasfunction.Executor/Execute".

(** An instance of a subclass of [ExecutorServicer] whose [Execute]
    overrides the default and returns a fixed reply, touching neither the
    request nor the context. *)
Definition constant_servicer `{pb : faas_pb2} (reply : FaasReply) : Servicer :=
  {| __dict__ := ∅; Execute_function := λ _ _, grpc.ret reply |}.

(** * Properties *)

(** ** The length-prefixed codec *)
Section wire_codec.
Import wire.

Lemma to_N_byte_of_N (n : N) : Byte.to_N (byte_of_N n) = (n mod 256)%N.
Proof.
  unfold byte_of_N.
  destruct (Byte.of_N (n mod 256)) as [b|] eqn:E; simpl.
  - by apply Byte.to_of_N.
  - apply Byte.of_N_None_iff in E.
    pose proof (N.mod_upper_bound n 256). lia.
Qed.

Lemma decode_encode_length (n : N) (b0 b1 b2 b3 : byte) :
  (n < 4294967296)%N →
  encode_length n = [b0; b1; b2; b3] →
  decode_length b0 b1 b2 b3 = n.
Proof.
  intros Hn Henc. unfold encode_length in Henc.
  injection Henc as <- <- <- <-.
  unfold decode_length. rewrite !to_N_byte_of_N.
  zify. Z.to_euclidean_division_equations. lia.
Qed.

Lemma fits_bound (v : bytes) : fits v = true → (N.of_nat (length v) < 4294967296)%N.
Proof. unfold fits. by intros ?%N.ltb_lt. Qed.

Lemma decode_fields_aux_field (fuel : nat) (v rest : bytes) :
  fits v = true →
  decode_fields_aux (S fuel) (encode_field v ++ rest) =
    (v ::.) <$> decode_fields_aux fuel rest.
Proof.
  intros Hv%fits_bound. unfold encode_field, encode_length.
  rewrite <- app_assoc. cbn [app decode_fields_aux].
  rewrite (decode_encode_length (N.of_nat (length v))) by done.
  rewrite decide_True by (rewrite length_app; lia).
  by rewrite Nat2N.id, take_app_length, drop_app_length.
Qed.

Lemma length_encode_field (v : bytes) : length (encode_field v) = 4 + length v.
Proof. reflexivity. Qed.

Lemma decode_fields_aux_encode (vs : list bytes) :
  forallb fits vs = true →
  ∀ fuel, (length (encode_fields vs) ≤ fuel)%nat →
  decode_fields_aux fuel (encode_fields vs) = Some vs.
Proof.
  induction vs as [|v vs IH]; intros Hvalid fuel Hfuel.
  - by destruct fuel.
  - simpl in Hvalid. apply andb_true_iff in Hvalid as [Hv Hvs].
    change (encode_fields (v :: vs))
      with (encode_field v ++ encode_fields vs)%list in *.
    rewrite length_app, length_encode_field in Hfuel.
    destruct fuel as [|fuel]; [lia|].
    rewrite decode_fields_aux_field by done.
    rewrite IH by (done || lia). done.
Qed.

Lemma decode_encode_fields (vs : list bytes) :
  forallb fits vs = true → decode_fields (encode_fields vs) = Some vs.
Proof. intros Hvalid. by apply decode_fields_aux_encode. Qed.

Lemma arguments_of_argument_fields (args : list (string * bytes)) :
  arguments_of_fields (args ≫= argument_fields) = Some args.
Proof.
  induction args as [|[name data] args IH]; [done|].
  rewrite bind_cons. simpl. rewrite IH. simpl.
  by rewrite String.string_of_list_byte_of_string.
Qed.

Lemma Request_of_Request_fields (r : Request) :
  Request_of_fields (Request_fields r) = Some r.
Proof.
  destruct r as [f args]. unfold Request_fields, Request_of_fields. simpl.
  rewrite arguments_of_argument_fields. simpl.
  by rewrite String.string_of_list_byte_of_string, list_to_map_to_list.
Qed.

Lemma Request_round_trip (r : Request) :
  valid_Request r = true → Request_FromString (Request_SerializeToString r) = Some r.
Proof.
  intros Hvalid. unfold Request_FromString, Request_SerializeToString.
  rewrite decode_encode_fields by done. simpl.
  apply Request_of_Request_fields.
Qed.

Lemma Reply_round_trip (r : Reply) :
  valid_Reply r = true → Reply_FromString (Reply_SerializeToString r) = Some r.
Proof. apply decode_encode_fields. Qed.
End wire_codec.

(** ** Registration and dispatch *)
Section dispatch.
Context `{pb : faas_pb2}.
Implicit Types (servicer : Servicer) (server : grpc.Server FaasRequest FaasReply).
Implicit Types (method : string) (payload : bytes).

Lemma fully_qualified_method_inj (group : string) :
  Inj (=) (=) (grpc.fully_qualified_method group).
Proof.
  intros m1 m2 Heq. unfold grpc.fully_qualified_method in Heq.
  by repeat apply (inj (String.app _)) in Heq.
Qed.

Lemma generic_handler_table servicer :
  grpc._method_handlers (generic_handler servicer) =
    {[ Execute_method_name :=
         grpc.unary_unary_rpc_method_handler (servicer_Execute servicer)
           (FromString FaasRequest) (SerializeToString FaasReply) ]}.
Proof.
  unfold generic_handler, rpc_method_handlers. simpl.
  pose proof (fully_qualified_method_inj "faasfunction.Executor").
  by rewrite kmap_singleton.
Qed.

Lemma service_generic_handler servicer method :
  grpc.service (generic_handler servicer) method =
    if decide (method = Execute_method_name)
    then Some (grpc.unary_unary_rpc_method_handler (servicer_Execute servicer)
                 (FromString FaasRequest) (SerializeToString FaasReply))
    else None.
Proof.
  unfold grpc.service. rewrite generic_handler_table.
  case_decide as Hm.
  - subst. apply lookup_singleton_eq.
  - by apply lookup_singleton_ne.
Qed.

Lemma find_method_handler_app method
    (hs1 hs2 : list (grpc.GenericHandler FaasRequest FaasReply)) :
  grpc._find_method_handler method (hs1 ++ hs2) =
    match grpc._find_method_handler method hs1 with
    | Some mh => Some mh
    | None => grpc._find_method_handler method hs2
    end.
Proof.
  induction hs1 as [|h hs1 IH]; simpl; [done|].
  by destruct (grpc.service h method).
Qed.

Lemma add_ExecutorServicer_to_server_returns servicer server :
  add_ExecutorServicer_to_server servicer server =
    Returned (servicer,
      {| grpc.generic_handlers :=
           grpc.generic_handlers server ++ [generic_handler servicer] |}).
Proof. reflexivity. Qed.

Lemma find_after_registration servicer method
    (handlers : list (grpc.GenericHandler FaasRequest FaasReply)) :
  grpc._find_method_handler method (handlers ++ [generic_handler servicer]) =
    match grpc._find_method_handler method handlers with
    | Some mh => Some mh
    | None => grpc.service (generic_handler servicer) method
    end.
Proof.
  rewrite find_method_handler_app. simpl.
  by destruct (grpc.service (generic_handler servicer) method).
Qed.
End dispatch.

(** ** The default servicer *)

(** C8: for every request and every context, the default servicer's
    [Execute] returns no reply: it sets the status code of the context to
    [UNIMPLEMENTED], then its details to the text "Method not implemented!",
    and then raises [NotImplementedError] with that text. *)
Theorem default_Execute_never_returns `{pb : faas_pb2} {Self : Type} (self : Self)
    (request : FaasRequest) (context : grpc.ServicerContext) :
  ExecutorServicer.Execute self request context =
    ({| grpc.code := Some UNIMPLEMENTED;
        grpc.details := Some "Method not implemented!";
        grpc.history :=
          grpc.history context ++
            [grpc.SetCode UNIMPLEMENTED; grpc.SetDetails "Method not implemented!"] |},
     Raised (NotImplementedError "Method not implemented!"))
  ∧ ∀ reply : FaasReply,
      (ExecutorServicer.Execute self request context).2 ≠ Returned reply.
Proof.
  assert (ExecutorServicer.Execute self request context =
    ({| grpc.code := Some UNIMPLEMENTED;
        grpc.details := Some "Method not implemented!";
        grpc.history :=
          grpc.history context ++
            [grpc.SetCode UNIMPLEMENTED; grpc.SetDetails "Method not implemented!"] |},
     Raised (NotImplementedError "Method not implemented!"))) as Hrun.
  { unfold ExecutorServicer.Execute, grpc.bind, grpc.set_code, grpc.set_details,
      grpc.raise. simpl. by rewrite <- app_assoc. }
  split; [exact Hrun|].
  intros reply. rewrite Hrun. discriminate.
Qed.

(** C1: a call of [Execute] through the client stub, against a server on
    which the default servicer is the handler of the method, resolves with
    status [UNIMPLEMENTED] and the detail "Method not implemented!", and
    carries no reply. *)
Theorem default_servicer_call_unimplemented `{pb : faas_pb2}
    (server0 server1 : grpc.Server FaasRequest FaasReply)
    (request decoded : FaasRequest) :
  grpc._find_method_handler Execute_method_name (grpc.generic_handlers server0) = None →
  add_ExecutorServicer_to_server ExecutorServicer_instance server0 =
    Returned (ExecutorServicer_instance, server1) →
  FromString FaasRequest (SerializeToString FaasRequest request) = Some decoded →
  grpc._blocking
      (ExecutorStub.Execute (ExecutorStub.__init__ (grpc.server_channel server1)))
      request =
    {| grpc.status := UNIMPLEMENTED;
       grpc.status_details := "Method not implemented!";
       grpc.response := None;
       grpc.invocations := [decoded] |}.
Proof.
  intros Hfree Hadd Hdecode.
  rewrite add_ExecutorServicer_to_server_returns in Hadd.
  injection Hadd as <-.
  unfold grpc._blocking, ExecutorStub.__init__, grpc.server_channel,
    grpc._handle_call. simpl.
  change "/faasfunction.Executor/Execute" with Execute_method_name.
  rewrite find_after_registration, Hfree, service_generic_handler.
  rewrite decide_True by done. simpl.
  by rewrite Hdecode.
Qed.

Lemma default_servicer_call_unimplemented_witness :
  ∃ server1 : grpc.Server (@FaasRequest wire.pb2) (@FaasReply wire.pb2),
    grpc._blocking
        (ExecutorStub.Execute (ExecutorStub.__init__ (grpc.server_channel server1)))
        wire.sample_request =
      {| grpc.status := UNIMPLEMENTED;
         grpc.status_details := "Method not implemented!";
         grpc.response := None;
         grpc.invocations := [wire.sample_request] |}.
Proof.
  eexists.
  apply (default_servicer_call_unimplemented (pb := wire.pb2) grpc.server).
  - reflexivity.
  - reflexivity.
  - vm_compute. reflexivity.
Defined.

(** On a server without any handler the runtime itself rejects the call:
    the status is [UNIMPLEMENTED] as well, the detail is the runtime's. *)
Remark unregistered_method_not_found `{pb : faas_pb2} (method : string)
    (payload : bytes) :
  grpc._handle_call (Resp := FaasReply) grpc.server method payload =
    {| grpc.status := UNIMPLEMENTED;
       grpc.status_details := "Method not found!";
       grpc.response := None;
       grpc.invocations := @nil FaasRequest |}.
Proof. reflexivity. Qed.

(** ** Registration *)

(** C10: [add_ExecutorServicer_to_server] appends exactly one generic handler
    to those of the server; that handler, of service "faasfunction.Executor",
    is built from a dictionary with the single entry "Execute" and serves the
    single method name of the service with the bound [Execute] of the
    servicer passed in; the servicer object is left as it was. *)
Theorem add_ExecutorServicer_to_server_effect `{pb : faas_pb2}
    (servicer : Servicer) (server : grpc.Server FaasRequest FaasReply) :
  ∃ (h : grpc.GenericHandler FaasRequest FaasReply)
    (mh : grpc.RpcMethodHandler FaasRequest FaasReply),
    add_ExecutorServicer_to_server servicer server =
      Returned (servicer,
        {| grpc.generic_handlers := grpc.generic_handlers server ++ [h] |})
    ∧ h = grpc.method_handlers_generic_handler "faasfunction.Executor" {[ "Execute" := mh ]}
    ∧ grpc.service_name h = "faasfunction.Executor"
    ∧ grpc._method_handlers h = {[ Execute_method_name := mh ]}
    ∧ size (grpc._method_handlers h) = 1
    ∧ grpc.unary_unary mh = servicer_Execute servicer.
Proof.
  exists (generic_handler servicer).
  exists (grpc.unary_unary_rpc_method_handler (servicer_Execute servicer)
            (FromString FaasRequest) (SerializeToString FaasReply)).
  split_and!; first
    [ reflexivity
    | apply generic_handler_table
    | rewrite generic_handler_table; apply map_size_singleton ].
Qed.

(** C3, as the code has it: registering a second time does not fail.  After
    a first registration, [add_ExecutorServicer_to_server] returns normally
    again, appends one more generic handler behind those present and
    changes none of them, and every method is still dispatched to the
    handler it was dispatched to before. *)
Theorem second_registration_appends `{pb : faas_pb2}
    (servicer1 servicer2 : Servicer)
    (server0 server1 : grpc.Server FaasRequest FaasReply) :
  add_ExecutorServicer_to_server servicer1 server0 = Returned (servicer1, server1) →
  ∃ server2,
    add_ExecutorServicer_to_server servicer2 server1 = Returned (servicer2, server2)
    ∧ grpc.generic_handlers server2 =
        grpc.generic_handlers server1 ++ [generic_handler servicer2]
    ∧ (∀ method,
         grpc._find_method_handler method (grpc.generic_handlers server2) =
         grpc._find_method_handler method (grpc.generic_handlers server1))
    ∧ (∀ method payload,
         grpc._handle_call server2 method payload =
         grpc._handle_call server1 method payload).
Proof.
  intros Hfirst.
  rewrite add_ExecutorServicer_to_server_returns in Hfirst.
  injection Hfirst as <-.
  eexists. split; [apply add_ExecutorServicer_to_server_returns|].
  split; [reflexivity|].
  assert (∀ method,
    grpc._find_method_handler method
      ((grpc.generic_handlers server0 ++ [generic_handler servicer1]) ++
         [generic_handler servicer2]) =
    grpc._find_method_handler method
      (grpc.generic_handlers server0 ++ [generic_handler servicer1])) as Hfind.
  { intros method. rewrite !find_after_registration.
    destruct (grpc._find_method_handler method (grpc.generic_handlers server0));
      [done|].
    rewrite !service_generic_handler. by case_decide. }
  split; [exact Hfind|].
  intros method payload. unfold grpc._handle_call. simpl. by rewrite Hfind.
Qed.

Lemma second_registration_appends_witness :
  ∃ server1 server2 : grpc.Server (@FaasRequest wire.pb2) (@FaasReply wire.pb2),
    add_ExecutorServicer_to_server ExecutorServicer_instance grpc.server =
      Returned (ExecutorServicer_instance, server1)
    ∧ add_ExecutorServicer_to_server ExecutorServicer_instance server1 =
      Returned (ExecutorServicer_instance, server2)
    ∧ ∀ method payload,
        grpc._handle_call server2 method payload =
        grpc._handle_call server1 method payload.
Proof.
  eexists.
  destruct (second_registration_appends (pb := wire.pb2)
              ExecutorServicer_instance ExecutorServicer_instance grpc.server _
              eq_refl) as (server2 & Hadd & _ & _ & Hcall).
  exists server2. split; [reflexivity|]. split; [exact Hadd | exact Hcall].
Defined.

(** C3 as stated fails: on a server that already holds a registration of the
    method, a second registration raises nothing; it returns, and the server
    then holds two generic handlers. *)
Lemma duplicate_registration_counterexample :
  ∃ server1 server2 : grpc.Server (@FaasRequest wire.pb2) (@FaasReply wire.pb2),
    add_ExecutorServicer_to_server ExecutorServicer_instance grpc.server =
      Returned (ExecutorServicer_instance, server1)
    ∧ is_Some (grpc._find_method_handler Execute_method_name
                 (grpc.generic_handlers server1))
    ∧ add_ExecutorServicer_to_server ExecutorServicer_instance server1 =
      Returned (ExecutorServicer_instance, server2)
    ∧ (∀ e, add_ExecutorServicer_to_server ExecutorServicer_instance server1 ≠ Raised e)
    ∧ length (grpc.generic_handlers server2) = 2.
Proof.
  eexists. eexists.
  split; [reflexivity|].
  split; [vm_compute; eauto|].
  split; [reflexivity|].
  split; [discriminate | reflexivity].
Qed.

(** ** Undecodable requests *)

(** C4, as the code has it: when the payload of a call to the registered
    method fails to decode as a [FaasRequest], the servicer's [Execute] is
    not invoked and no reply is produced; the call resolves with the status
    [INTERNAL] and the detail "Exception deserializing request!". *)
Theorem undecodable_request_aborts `{pb : faas_pb2} (servicer : Servicer)
    (server0 server1 : grpc.Server FaasRequest FaasReply) (payload : bytes) :
  grpc._find_method_handler Execute_method_name (grpc.generic_handlers server0) = None →
  add_ExecutorServicer_to_server servicer server0 = Returned (servicer, server1) →
  FromString FaasRequest payload = None →
  grpc._handle_call server1 Execute_method_name payload =
    {| grpc.status := INTERNAL;
       grpc.status_details := "Exception deserializing request!";
       grpc.response := None;
       grpc.invocations := [] |}.
Proof.
  intros Hfree Hadd Hdecode.
  rewrite add_ExecutorServicer_to_server_returns in Hadd.
  injection Hadd as <-.
  unfold grpc._handle_call. simpl.
  rewrite find_after_registration, Hfree, service_generic_handler.
  rewrite decide_True by done. simpl.
  by rewrite Hdecode.
Qed.

Lemma undecodable_request_aborts_witness :
  ∃ server1 : grpc.Server (@FaasRequest wire.pb2) (@FaasReply wire.pb2),
    grpc._handle_call server1 Execute_method_name [x00] =
      {| grpc.status := INTERNAL;
         grpc.status_details := "Exception deserializing request!";
         grpc.response := None;
         grpc.invocations := [] |}.
Proof.
  eexists.
  apply (undecodable_request_aborts (pb := wire.pb2)
           ExecutorServicer_instance grpc.server).
  - reflexivity.
  - reflexivity.
  - vm_compute. reflexivity.
Defined.

(** C4 as stated fails: the one-byte payload [00] does not decode as a
    request, and the call resolves with the outcome [Internal], which is not
    [MalformedMessage]. *)
Lemma malformed_payload_counterexample :
  ∃ server1 : grpc.Server (@FaasRequest wire.pb2) (@FaasReply wire.pb2),
    add_ExecutorServicer_to_server ExecutorServicer_instance grpc.server =
      Returned (ExecutorServicer_instance, server1)
    ∧ FromString (@FaasRequest wire.pb2) [x00] = None
    ∧ outcome_of_code
        (grpc.status (grpc._handle_call server1 Execute_method_name [x00])) =
      Some Internal
    ∧ outcome_of_code
        (grpc.status (grpc._handle_call server1 Execute_method_name [x00])) ≠
      Some MalformedMessage.
Proof.
  eexists. split; [reflexivity|].
  split; [vm_compute; reflexivity|].
  split; [vm_compute; reflexivity|].
  vm_compute. discriminate.
Qed.

(** ** The method descriptor *)

(** C5: the client stub, the static helper and the server registration each
    name one method, and the same one: "/faasfunction.Executor/Execute".  The
    registration, [add_ExecutorServicer_to_server], installs on the server a
    generic handler of service "faasfunction.Executor" built from the
    one-entry dictionary with key "Execute"; the name composed from the two
    is the only one the installed handler serves, and it is the name under
    which the stub and the static helper call, so that their calls find the
    installed method handler unless an earlier handler serves the name.  All
    three take [FaasRequest] as the request type and [FaasReply] as the reply
    type: the client sides serialize with the one and parse with the other,
    the installed method handler parses with the one and serializes with the
    other. *)
Theorem method_descriptor_agreement `{pb : faas_pb2}
    (channel : grpc.Channel FaasRequest) (servicer : Servicer)
    (server : grpc.Server FaasRequest FaasReply)
    (request : FaasRequest) (target : string) (kw : Executor.keywords) :
  let stub := ExecutorStub.Execute (ExecutorStub.__init__ channel) in
  let call := Executor.Execute id request target kw in
  grpc._method stub = "/faasfunction.Executor/Execute"
  ∧ grpc.experimental.method call = "/faasfunction.Executor/Execute"
  ∧ grpc._request_serializer stub = SerializeToString FaasRequest
  ∧ grpc._response_deserializer stub = FromString FaasReply
  ∧ grpc.experimental.request_serializer call = SerializeToString FaasRequest
  ∧ grpc.experimental.response_deserializer call = FromString FaasReply
  ∧ ∃ (h : grpc.GenericHandler FaasRequest FaasReply)
      (mh : grpc.RpcMethodHandler FaasRequest FaasReply)
      (server' : grpc.Server FaasRequest FaasReply),
      add_ExecutorServicer_to_server servicer server = Returned (servicer, server')
      ∧ grpc.generic_handlers server' = grpc.generic_handlers server ++ [h]
      ∧ h = grpc.method_handlers_generic_handler "faasfunction.Executor"
              {[ "Execute" := mh ]}
      ∧ grpc.service_name h = "faasfunction.Executor"
      ∧ grpc.fully_qualified_method "faasfunction.Executor" "Execute" =
          "/faasfunction.Executor/Execute"
      ∧ dom (grpc._method_handlers h) = {[ "/faasfunction.Executor/Execute" ]}
      ∧ grpc.service h (grpc._method stub) = Some mh
      ∧ grpc.service h (grpc.experimental.method call) = Some mh
      ∧ grpc._find_method_handler (grpc._method stub) (grpc.generic_handlers server') =
          match grpc._find_method_handler (grpc._method stub)
                  (grpc.generic_handlers server) with
          | Some earlier => Some earlier
          | None => Some mh
          end
      ∧ grpc._find_method_handler (grpc.experimental.method call)
            (grpc.generic_handlers server') =
          match grpc._find_method_handler (grpc.experimental.method call)
                  (grpc.generic_handlers server) with
          | Some earlier => Some earlier
          | None => Some mh
          end
      ∧ grpc.request_deserializer mh = FromString FaasRequest
      ∧ grpc.response_serializer mh = SerializeToString FaasReply.
Proof.
  intros stub call.
  split_and!; try reflexivity.
  exists (generic_handler servicer).
  exists (grpc.unary_unary_rpc_method_handler (servicer_Execute servicer)
            (FromString FaasRequest) (SerializeToString FaasReply)).
  exists {| grpc.generic_handlers :=
              grpc.generic_handlers server ++ [generic_handler servicer] |}.
  assert (grpc.service (generic_handler servicer) Execute_method_name =
          Some (grpc.unary_unary_rpc_method_handler (servicer_Execute servicer)
                  (FromString FaasRequest) (SerializeToString FaasReply)))
    as Hserved.
  { rewrite service_generic_handler. by rewrite decide_True. }
  assert (dom (grpc._method_handlers (generic_handler servicer)) =
          {[ Execute_method_name ]}) as Hdom.
  { by rewrite generic_handler_table, dom_singleton_L. }
  assert (grpc._find_method_handler Execute_method_name
            (grpc.generic_handlers server ++ [generic_handler servicer]) =
          match grpc._find_method_handler Execute_method_name
                  (grpc.generic_handlers server) with
          | Some earlier => Some earlier
          | None =>
              Some (grpc.unary_unary_rpc_method_handler (servicer_Execute servicer)
                      (FromString FaasRequest) (SerializeToString FaasReply))
          end) as Hfind.
  { rewrite find_after_registration. by rewrite Hserved. }
  split; [apply add_ExecutorServicer_to_server_returns|].
  split_and!; try first [exact Hserved | exact Hdom | exact Hfind | reflexivity].
Qed.

(** ** The static helper *)

Lemma Execute_call `{pb : faas_pb2} {R : Type}
    (unary_unary : grpc.experimental.unary_unary_arguments FaasRequest FaasReply → R)
    (request : FaasRequest) (target : string) (kw : Executor.keywords) :
  Executor.Execute unary_unary request target kw =
    unary_unary
      {| grpc.experimental.request := request;
         grpc.experimental.target := target;
         grpc.experimental.method := "/faasfunction.Executor/Execute";
         grpc.experimental.request_serializer := SerializeToString FaasRequest;
         grpc.experimental.response_deserializer := FromString FaasReply;
         grpc.experimental.options := default (VTuple []) (Executor.options kw);
         grpc.experimental.channel_credentials :=
           default VNone (Executor.channel_credentials kw);
         grpc.experimental.insecure := default (VBool false) (Executor.insecure kw);
         grpc.experimental.call_credentials :=
           default VNone (Executor.call_credentials kw);
         grpc.experimental.compression := default VNone (Executor.compression kw);
         grpc.experimental.wait_for_ready := default VNone (Executor.wait_for_ready kw);
         grpc.experimental.timeout := default VNone (Executor.timeout kw);
         grpc.experimental.metadata := default VNone (Executor.metadata kw) |}.
Proof. reflexivity. Qed.

(** C6: whichever of the keywords [options], [channel_credentials],
    [call_credentials], [insecure], [compression], [wait_for_ready],
    [timeout] and [metadata] the caller passes, and whatever their values,
    [Executor.Execute] hands every value passed, as it is, to the parameter
    of the same name of the transport call, whether or not the other
    keywords are passed; a keyword left out arrives as its default; and the
    result is what the transport returns for that call. *)
Theorem Execute_forwards_options `{pb : faas_pb2} {R : Type}
    (unary_unary : grpc.experimental.unary_unary_arguments FaasRequest FaasReply → R)
    (request : FaasRequest) (target : string) (kw : Executor.keywords) :
  let call := Executor.Execute id request target kw in
  Executor.Execute unary_unary request target kw = unary_unary call
  ∧ call =
      {| grpc.experimental.request := request;
         grpc.experimental.target := target;
         grpc.experimental.method := "/faasfunction.Executor/Execute";
         grpc.experimental.request_serializer := SerializeToString FaasRequest;
         grpc.experimental.response_deserializer := FromString FaasReply;
         grpc.experimental.options := default (VTuple []) (Executor.options kw);
         grpc.experimental.channel_credentials :=
           default VNone (Executor.channel_credentials kw);
         grpc.experimental.insecure := default (VBool false) (Executor.insecure kw);
         grpc.experimental.call_credentials :=
           default VNone (Executor.call_credentials kw);
         grpc.experimental.compression := default VNone (Executor.compression kw);
         grpc.experimental.wait_for_ready := default VNone (Executor.wait_for_ready kw);
         grpc.experimental.timeout := default VNone (Executor.timeout kw);
         grpc.experimental.metadata := default VNone (Executor.metadata kw) |}
  ∧ (∀ v, Executor.options kw = Some v → grpc.experimental.options call = v)
  ∧ (∀ v, Executor.channel_credentials kw = Some v →
          grpc.experimental.channel_credentials call = v)
  ∧ (∀ v, Executor.call_credentials kw = Some v →
          grpc.experimental.call_credentials call = v)
  ∧ (∀ v, Executor.insecure kw = Some v → grpc.experimental.insecure call = v)
  ∧ (∀ v, Executor.compression kw = Some v → grpc.experimental.compression call = v)
  ∧ (∀ v, Executor.wait_for_ready kw = Some v →
          grpc.experimental.wait_for_ready call = v)
  ∧ (∀ v, Executor.timeout kw = Some v → grpc.experimental.timeout call = v)
  ∧ (∀ v, Executor.metadata kw = Some v → grpc.experimental.metadata call = v).
Proof.
  intros call.
  split; [reflexivity|]. split; [reflexivity|].
  split_and!; intros v Hpassed; unfold call, Executor.Execute; simpl;
    by rewrite Hpassed.
Qed.

(** A call that passes two of the eight keywords, [insecure=True] and
    [timeout=10]: both arrive, the other six are the defaults. *)
Lemma Execute_forwards_options_witness :
  let kw :=
    {| Executor.options := None; Executor.channel_credentials := None;
       Executor.call_credentials := None; Executor.insecure := Some (VBool true);
       Executor.compression := None; Executor.wait_for_ready := None;
       Executor.timeout := Some (VInt 10); Executor.metadata := None |} in
  let call :=
    Executor.Execute (pb := wire.pb2) id wire.sample_request "localhost:50051" kw in
  grpc.experimental.insecure call = VBool true
  ∧ grpc.experimental.timeout call = VInt 10
  ∧ grpc.experimental.options call = VTuple []
  ∧ grpc.experimental.call_credentials call = VNone.
Proof.
  intros kw call.
  destruct (Execute_forwards_options (pb := wire.pb2) id wire.sample_request
              "localhost:50051" kw)
    as (_ & Hcall & _ & _ & _ & Hinsecure & _ & _ & Htimeout & _).
  split; [exact (Hinsecure (VBool true) eq_refl)|].
  split; [exact (Htimeout (VInt 10) eq_refl)|].
  fold call in Hcall. rewrite Hcall. split; reflexivity.
Defined.

(** C9: with every optional argument left out, [Executor.Execute] calls the
    transport with [insecure] false, [options] the empty tuple, and
    [channel_credentials], [call_credentials], [compression],
    [wait_for_ready], [timeout] and [metadata] all [None]. *)
Theorem Execute_defaults `{pb : faas_pb2} {R : Type}
    (unary_unary : grpc.experimental.unary_unary_arguments FaasRequest FaasReply → R)
    (request : FaasRequest) (target : string) :
  Executor.Execute unary_unary request target Executor.omitted =
    unary_unary
      {| grpc.experimental.request := request;
         grpc.experimental.target := target;
         grpc.experimental.method := "/faasfunction.Executor/Execute";
         grpc.experimental.request_serializer := SerializeToString FaasRequest;
         grpc.experimental.response_deserializer := FromString FaasReply;
         grpc.experimental.options := VTuple [];
         grpc.experimental.channel_credentials := VNone;
         grpc.experimental.insecure := VBool false;
         grpc.experimental.call_credentials := VNone;
         grpc.experimental.compression := VNone;
         grpc.experimental.wait_for_ready := VNone;
         grpc.experimental.timeout := VNone;
         grpc.experimental.metadata := VNone |}.
Proof. by rewrite Execute_call. Qed.

(** ** The wire contract *)
Section wire_contract.
Local Existing Instance wire.pb2.


End wire_contract.

(** ** Registration and dispatch together *)

(** X1: after [add_ExecutorServicer_to_server] on a server where no earlier
    handler serves the method, a call of "/faasfunction.Executor/Execute"
    whose payload parses as a [FaasRequest] runs the bound [Execute] of the
    servicer passed in, once, on the parsed request and a fresh context.  A
    reply it returns is serialized by [FaasReply.SerializeToString]; an
    exception it raises ends the call without a reply. *)
Theorem registered_servicer_serves_Execute `{pb : faas_pb2} (servicer : Servicer)
    (server0 server1 : grpc.Server FaasRequest FaasReply)
    (payload : bytes) (request : FaasRequest) :
  grpc._find_method_handler Execute_method_name (grpc.generic_handlers server0) = None →
  add_ExecutorServicer_to_server servicer server0 = Returned (servicer, server1) →
  FromString FaasRequest payload = Some request →
  grpc._handle_call server1 "/faasfunction.Executor/Execute" payload =
    match servicer_Execute servicer request grpc.fresh_context with
    | (ctx, Returned reply) =>
        {| grpc.status := default OK (grpc.code ctx);
           grpc.status_details := default "" (grpc.details ctx);
           grpc.response := Some (SerializeToString FaasReply reply);
           grpc.invocations := [request] |}
    | (ctx, Raised e) =>
        {| grpc.status := default UNKNOWN (grpc.code ctx);
           grpc.status_details :=
             default ("Exception calling application: " +:+ exception_str e)
               (grpc.details ctx);
           grpc.response := None;
           grpc.invocations := [request] |}
    end.
Proof.
  intros Hfree Hadd Hdecode.
  rewrite add_ExecutorServicer_to_server_returns in Hadd.
  injection Hadd as <-.
  change "/faasfunction.Executor/Execute" with Execute_method_name.
  unfold grpc._handle_call. simpl.
  rewrite find_after_registration, Hfree, service_generic_handler.
  rewrite decide_True by done. simpl. rewrite Hdecode.
  by destruct (servicer_Execute servicer request grpc.fresh_context) as [ctx [reply|e]].
Qed.

Lemma registered_servicer_serves_Execute_witness :
  ∃ server1 : grpc.Server (@FaasRequest wire.pb2) (@FaasReply wire.pb2),
    grpc._handle_call server1 "/faasfunction.Executor/Execute"
        (SerializeToString (@FaasRequest wire.pb2) wire.sample_request) =
      {| grpc.status := OK;
         grpc.status_details := "";
         grpc.response :=
           Some (SerializeToString (@FaasReply wire.pb2) wire.sample_reply);
         grpc.invocations := [wire.sample_request] |}.
Proof.
  eexists.
  apply (registered_servicer_serves_Execute (pb := wire.pb2)
           (constant_servicer (pb := wire.pb2) wire.sample_reply) grpc.server).
  - reflexivity.
  - reflexivity.
  - vm_compute. reflexivity.
Defined.

(** X2: the registration serves the one fully qualified method name and no
    other: for every other method name, the bare "Execute" included, the
    lookup and the resolution of a call are the same after
    [add_ExecutorServicer_to_server] as before. *)
Theorem registration_leaves_other_methods `{pb : faas_pb2} (servicer : Servicer)
    (server0 server1 : grpc.Server FaasRequest FaasReply) (method : string) :
  method ≠ "/faasfunction.Executor/Execute" →
  add_ExecutorServicer_to_server servicer server0 = Returned (servicer, server1) →
  grpc._find_method_handler method (grpc.generic_handlers server1) =
    grpc._find_method_handler method (grpc.generic_handlers server0)
  ∧ ∀ payload,
      grpc._handle_call server1 method payload =
      grpc._handle_call server0 method payload.
Proof.
  intros Hother Hadd.
  rewrite add_ExecutorServicer_to_server_returns in Hadd.
  injection Hadd as <-.
  assert (grpc._find_method_handler method
            (grpc.generic_handlers server0 ++ [generic_handler servicer]) =
          grpc._find_method_handler method (grpc.generic_handlers server0)) as Hfind.
  { rewrite find_after_registration, service_generic_handler.
    rewrite decide_False by done.
    by destruct (grpc._find_method_handler method (grpc.generic_handlers server0)). }
  split; [exact Hfind|].
  intros payload. unfold grpc._handle_call. simpl. by rewrite Hfind.
Qed.

Lemma registration_leaves_other_methods_witness :
  ∃ server1 : grpc.Server (@FaasRequest wire.pb2) (@FaasReply wire.pb2),
    add_ExecutorServicer_to_server ExecutorServicer_instance grpc.server =
      Returned (ExecutorServicer_instance, server1)
    ∧ ∀ payload,
        grpc._handle_call server1 "Execute" payload =
        grpc._handle_call (Resp := @FaasReply wire.pb2) grpc.server "Execute" payload.
Proof.
  eexists. split; [reflexivity|].
  apply (registration_leaves_other_methods (pb := wire.pb2)
           ExecutorServicer_instance grpc.server _ "Execute").
  - discriminate.
  - reflexivity.
Defined.

(** X3: a call through the client stub reaches the servicer registered on
    the server of its channel and brings the reply back.  When the request
    survives serialization and parsing, the servicer returns a reply
    without setting a status code, and the reply survives serialization and
    parsing, the call ends [OK], the servicer has run once on the request,
    and the stub's deserializer turns the response into that reply. *)
Theorem stub_call_reaches_servicer `{pb : faas_pb2} (servicer : Servicer)
    (server0 server1 : grpc.Server FaasRequest FaasReply)
    (request : FaasRequest) (reply : FaasReply) (ctx : grpc.ServicerContext) :
  grpc._find_method_handler Execute_method_name (grpc.generic_handlers server0) = None →
  add_ExecutorServicer_to_server servicer server0 = Returned (servicer, server1) →
  FromString FaasRequest (SerializeToString FaasRequest request) = Some request →
  servicer_Execute servicer request grpc.fresh_context = (ctx, Returned reply) →
  grpc.code ctx = None →
  FromString FaasReply (SerializeToString FaasReply reply) = Some reply →
  let stub := ExecutorStub.Execute (ExecutorStub.__init__ (grpc.server_channel server1)) in
  let call := grpc._blocking stub request in
  grpc.status call = OK
  ∧ grpc.invocations call = [request]
  ∧ ∃ serialized,
      grpc.response call = Some serialized
      ∧ grpc._response_deserializer stub serialized = Some reply.
Proof.
  intros Hfree Hadd Hrequest Hrun Hcode Hreply stub call.
  assert (call =
    {| grpc.status := default OK (grpc.code ctx);
       grpc.status_details := default "" (grpc.details ctx);
       grpc.response := Some (SerializeToString FaasReply reply);
       grpc.invocations := [request] |}) as ->.
  { unfold call, stub, grpc._blocking, ExecutorStub.__init__, grpc.server_channel.
    simpl.
    rewrite add_ExecutorServicer_to_server_returns in Hadd.
    injection Hadd as <-.
    change "/faasfunction.Executor/Execute" with Execute_method_name.
    unfold grpc._handle_call. simpl.
    rewrite find_after_registration, Hfree, service_generic_handler.
    rewrite decide_True by done. simpl.
    by rewrite Hrequest, Hrun. }
  simpl. rewrite Hcode. split; [done|]. split; [done|].
  exists (SerializeToString FaasReply reply). split; [done|]. exact Hreply.
Qed.

Lemma stub_call_reaches_servicer_witness :
  ∃ server1 : grpc.Server (@FaasRequest wire.pb2) (@FaasReply wire.pb2),
    let stub :=
      ExecutorStub.Execute (ExecutorStub.__init__ (grpc.server_channel server1)) in
    grpc.status (grpc._blocking stub wire.sample_request) = OK
    ∧ ∃ serialized,
        grpc.response (grpc._blocking stub wire.sample_request) = Some serialized
        ∧ grpc._response_deserializer stub serialized = Some wire.sample_reply.
Proof.
  eexists. intros stub.
  destruct (stub_call_reaches_servicer (pb := wire.pb2)
              (constant_servicer (pb := wire.pb2) wire.sample_reply) grpc.server _
              wire.sample_request wire.sample_reply grpc.fresh_context
              eq_refl eq_refl eq_refl eq_refl eq_refl eq_refl)
    as (Hstatus & _ & Hresponse).
  split; [exact Hstatus | exact Hresponse].
Defined.

(** X4: a handler that already serves "/faasfunction.Executor/Execute" on the
    server, wherever it came from, shadows the registration:
    [add_ExecutorServicer_to_server] then changes the resolution of no call,
    and the servicer passed in is never reached. *)
Theorem earlier_handler_shadows_registration `{pb : faas_pb2} (servicer : Servicer)
    (server0 server1 : grpc.Server FaasRequest FaasReply) :
  is_Some (grpc._find_method_handler "/faasfunction.Executor/Execute"
             (grpc.generic_handlers server0)) →
  add_ExecutorServicer_to_server servicer server0 = Returned (servicer, server1) →
  ∀ method payload,
    grpc._handle_call server1 method payload =
    grpc._handle_call server0 method payload.
Proof.
  intros [mh Hserved] Hadd method payload.
  rewrite add_ExecutorServicer_to_server_returns in Hadd.
  injection Hadd as <-.
  unfold grpc._handle_call. simpl.
  rewrite find_after_registration, service_generic_handler.
  case_decide as Hmethod.
  - subst method. unfold Execute_method_name. by rewrite Hserved.
  - by destruct (grpc._find_method_handler method (grpc.generic_handlers server0)).
Qed.

Lemma earlier_handler_shadows_registration_witness :
  let server0 : grpc.Server (@FaasRequest wire.pb2) (@FaasReply wire.pb2) :=
    {| grpc.generic_handlers :=
         [ {| grpc.service_name := "faasfunction.Executor";
              grpc._method_handlers :=
                {[ "/faasfunction.Executor/Execute" :=
                     grpc.unary_unary_rpc_method_handler
                       (λ _, grpc.ret wire.sample_reply)
                       (FromString (@FaasRequest wire.pb2))
                       (SerializeToString (@FaasReply wire.pb2)) ]} |} ] |} in
  ∃ server1,
    add_ExecutorServicer_to_server ExecutorServicer_instance server0 =
      Returned (ExecutorServicer_instance, server1)
    ∧ ∀ method payload,
        grpc._handle_call server1 method payload =
        grpc._handle_call server0 method payload.
Proof.
  intros server0. eexists. split; [reflexivity|].
  apply (earlier_handler_shadows_registration (pb := wire.pb2)
           ExecutorServicer_instance server0).
  - vm_compute. eauto.
  - reflexivity.
Defined.

(** X5: an implementation registered after the default servicer does not
    take over.  With the default servicer registered first, a call through
    the stub still resolves with [UNIMPLEMENTED] and "Method not
    implemented!" and carries no reply, whatever servicer is registered
    second. *)
Theorem implementation_after_default_unreached `{pb : faas_pb2} (servicer : Servicer)
    (server0 server1 server2 : grpc.Server FaasRequest FaasReply)
    (request decoded : FaasRequest) :
  grpc._find_method_handler Execute_method_name (grpc.generic_handlers server0) = None →
  add_ExecutorServicer_to_server ExecutorServicer_instance server0 =
    Returned (ExecutorServicer_instance, server1) →
  add_ExecutorServicer_to_server servicer server1 = Returned (servicer, server2) →
  FromString FaasRequest (SerializeToString FaasRequest request) = Some decoded →
  grpc._blocking
      (ExecutorStub.Execute (ExecutorStub.__init__ (grpc.server_channel server2)))
      request =
    {| grpc.status := UNIMPLEMENTED;
       grpc.status_details := "Method not implemented!";
       grpc.response := None;
       grpc.invocations := [decoded] |}.
Proof.
  intros Hfree Hfirst Hsecond Hdecode.
  rewrite add_ExecutorServicer_to_server_returns in Hfirst.
  injection Hfirst as <-.
  rewrite add_ExecutorServicer_to_server_returns in Hsecond.
  injection Hsecond as <-.
  unfold grpc._blocking, ExecutorStub.__init__, grpc.server_channel,
    grpc._handle_call. simpl.
  change "/faasfunction.Executor/Execute" with Execute_method_name.
  rewrite !find_after_registration, Hfree, service_generic_handler.
  rewrite decide_True by done. simpl.
  by rewrite Hdecode.
Qed.

Lemma implementation_after_default_unreached_witness :
  ∃ server2 : grpc.Server (@FaasRequest wire.pb2) (@FaasReply wire.pb2),
    grpc._blocking
        (ExecutorStub.Execute (ExecutorStub.__init__ (grpc.server_channel server2)))
        wire.sample_request =
      {| grpc.status := UNIMPLEMENTED;
         grpc.status_details := "Method not implemented!";
         grpc.response := None;
         grpc.invocations := [wire.sample_request] |}.
Proof.
  eexists.
  eapply (implementation_after_default_unreached (pb := wire.pb2)
            (constant_servicer (pb := wire.pb2) wire.sample_reply) grpc.server).
  - reflexivity.
  - reflexivity.
  - reflexivity.
  - vm_compute. reflexivity.
Defined.
